(** * Session-creation verification harness ([verify_sessions.py])

    A shallow embedding of the Playwright smoke test that drives the web
    application through "pick a recent repository, start a session" and
    then looks for a [.json] artifact under [~/.viba/sessions].

    The script is a straight-line sequence of calls into collaborators
    that live outside the repository (the browser driver, the [os]
    module, the application under test).  Each such call is answered by
    an environment [Env W] over an arbitrary world type [W]; the script
    itself is written in a state-and-exception monad that threads the
    world and records every call it issues, in order, in a log.
    Theorems about the script quantify over every environment; concrete
    runs use the executable environment of [Module Stub], whose file
    system is a [gmap] from paths to nodes. *)

From stdpp Require Import base option list strings gmap.
From Stdlib Require Import Ascii ZArith.

(** ** Python values that cross the boundary *)

(** [except Exception] catches every instance of [Exception]
    ([AssertionError] from [expect], Playwright's [Error] and
    [TimeoutError], [OSError] and its subclasses, the script's own
    [Exception("...")]); [KeyboardInterrupt], [SystemExit] and
    [GeneratorExit] derive from [BaseException] only and pass through.
    The payload is [str(e)]. *)
Inductive exc : Type :=
| Exception (msg : string)
| BaseException (msg : string).

Definition str_of (e : exc) : string :=
  match e with Exception m | BaseException m => m end.

Inductive result (A : Type) : Type :=
| Ok (a : A)
| Raise (e : exc).
Arguments Ok {A} a.
Arguments Raise {A} e.

(** Locators are lazy descriptions; building one never fails. *)
Inductive locator : Type :=
| get_by_text (text : string)
| get_by_placeholder (text : string)
| get_by_role (role name : string)
| first (l : locator).

(** The calls made on the page (and on [expect(locator)]). *)
Inductive page_op : Type :=
| goto (url : string)
| to_be_visible (l : locator)
| click (l : locator)
| fill (l : locator) (text : string)
| wait_for_url (pattern : string)
| wait_for_timeout (ms : Z)
| screenshot (path : string).

(** An f-string is kept as its fragments: the literal text, the [repr]
    of a list of names ([{files}]) and the [str] of an exception
    ([{e}]). *)
Inductive fragment : Type :=
| Lit (s : string)
| ReprList (l : list string)
| StrExc (e : exc).

Definition message := list fragment.

(** Everything the script calls outside itself. *)
Inductive call : Type :=
| SyncPlaywrightEnter
| SyncPlaywrightExit
| ChromiumLaunch (headless : bool)
| BrowserNewPage
| BrowserClose
| PageCall (op : page_op)
| OsPathExists (p : string)
| OsMakedirs (p : string)
| OsPathExpanduser (p : string)
| OsListdir (p : string)
| Print (m : message).

Inductive value : Type :=
| VNone
| VBool (b : bool)
| VStr (s : string)
| VList (l : list string).

Inductive answer : Type :=
| Returned (v : value)
| Raised (e : exc).

Record event : Type := Ev { ev_call : call; ev_answer : answer }.

Definition answer_of {A} (inj : A → value) (r : result A) : answer :=
  match r with Ok a => Returned (inj a) | Raise e => Raised e end.

(** ** Pure helpers from the standard library of the source language *)

(** [str.endswith]. *)
Definition endswith (s suffix : string) : bool :=
  let n := String.length s in
  let m := String.length suffix in
  if Nat.leb m n then String.eqb (String.substring (n - m) m s) suffix else false.

(** [str.startswith]. *)
Definition startswith (s pre : string) : bool := String.prefix pre s.

(** [posixpath.join]: a component that starts with the separator
    restarts the path; otherwise it is appended, with a separator unless
    the path so far is empty or already ends with one. *)
Definition join_step (path b : string) : string :=
  if startswith b "/" then b
  else if String.eqb path "" || endswith path "/" then path +:+ b
  else path +:+ "/" +:+ b.

Definition os_path_join (a : string) (p : list string) : string :=
  foldl join_step a p.

(** [any(f.endswith(".json") for f in files)]. *)
Definition any_json (files : list string) : bool :=
  existsb (λ f, endswith f ".json") files.

(** ** The environment *)

Record Env (W : Type) : Type := {
  sync_playwright_enter : W → result unit * W;
  sync_playwright_exit : W → result unit * W;
  chromium_launch : bool → W → result unit * W;
  browser_new_page : W → result unit * W;
  browser_close : W → result unit * W;
  page_do : page_op → W → result unit * W;
  os_path_exists : string → W → bool * W;
  os_makedirs : string → W → result unit * W;
  os_path_expanduser : string → W → string * W;
  os_listdir : string → W → result (list string) * W;
}.
Arguments sync_playwright_enter {W} _ _.
Arguments sync_playwright_exit {W} _ _.
Arguments chromium_launch {W} _ _ _.
Arguments browser_new_page {W} _ _.
Arguments browser_close {W} _ _.
Arguments page_do {W} _ _ _.
Arguments os_path_exists {W} _ _ _.
Arguments os_makedirs {W} _ _ _.
Arguments os_path_expanduser {W} _ _ _.
Arguments os_listdir {W} _ _ _.

(** ** The monad of the script *)

Record state (W : Type) : Type := State { world : W; log : list event }.
Arguments State {W} _ _.
Arguments world {W} _.
Arguments log {W} _.

Definition M (W A : Type) : Type := state W → result A * state W.

Definition ret {W A} (a : A) : M W A := λ s, (Ok a, s).

Definition raise {W A} (e : exc) : M W A := λ s, (Raise e, s).

Definition bind {W A B} (m : M W A) (k : A → M W B) : M W B :=
  λ s, match m s with
       | (Ok a, s') => k a s'
       | (Raise e, s') => (Raise e, s')
       end.

Declare Scope py_scope.
Delimit Scope py_scope with py.
Notation "x <- m ; k" := (bind m (λ x, k))
  (at level 100, m at next level, right associativity) : py_scope.
Notation "m ;; k" := (bind m (λ _, k))
  (at level 100, right associativity) : py_scope.

(** One external call that may raise: the environment answers, the
    world moves on, the call and its answer are appended to the log. *)
Definition invoke {W A} (c : call) (inj : A → value)
    (f : W → result A * W) : M W A :=
  λ s, let '(r, w) := f (world s) in
       (r, State w (log s ++ [Ev c (answer_of inj r)])).

(** One external call that always returns. *)
Definition observe {W A} (c : call) (inj : A → value)
    (f : W → A * W) : M W A :=
  invoke c inj (λ w, let '(a, w') := f w in (Ok a, w')).

(** [print(...)]: a line on standard output, kept in the log. *)
Definition print {W} (m : message) : M W unit :=
  λ s, (Ok tt, State (world s) (log s ++ [Ev (Print m) (Returned VNone)])).

(** [try: body / except Exception as e: handler e / finally: final].
    The handler runs only for [Exception]; whatever is pending after it
    (a value, or an exception from the body or from the handler) is
    kept across [final] unless [final] itself raises. *)
Definition try_except_finally {W A} (body : M W A) (handler : exc → M W A)
    (final : M W unit) : M W A :=
  λ s,
    let '(r, s1) := body s in
    let '(r', s2) := match r with
                     | Raise (Exception m) => handler (Exception m) s1
                     | _ => (r, s1)
                     end in
    let '(rf, s3) := final s2 in
    (match rf with Ok _ => r' | Raise e => Raise e end, s3).

(** [with cm as p: body]: [enter]; the body; [exit] on the way out,
    whatever the body did.  The exit of [sync_playwright] does not
    suppress a pending exception. *)
Definition with_ {W A} (enter exit : M W unit) (body : M W A) : M W A :=
  λ s,
    match enter s with
    | (Raise e, s1) => (Raise e, s1)
    | (Ok _, s1) =>
        let '(r, s2) := body s1 in
        let '(rx, s3) := exit s2 in
        (match rx with Ok _ => r | Raise e => Raise e end, s3)
    end.

(** ** The script *)

Section Harness.
Context {W : Type} (E : Env W).

Local Open Scope py_scope.

Definition page_call (op : page_op) : M W unit :=
  invoke (PageCall op) (λ _, VNone) (page_do E op).

Definition exists_ (p : string) : M W bool :=
  observe (OsPathExists p) VBool (os_path_exists E p).

Definition makedirs (p : string) : M W unit :=
  invoke (OsMakedirs p) (λ _, VNone) (os_makedirs E p).

Definition expanduser (p : string) : M W string :=
  observe (OsPathExpanduser p) VStr (os_path_expanduser E p).

Definition listdir (p : string) : M W (list string) :=
  invoke (OsListdir p) VList (os_listdir E p).

Definition launch (headless : bool) : M W unit :=
  invoke (ChromiumLaunch headless) (λ _, VNone) (chromium_launch E headless).

Definition new_page : M W unit :=
  invoke BrowserNewPage (λ _, VNone) (browser_new_page E).

Definition close : M W unit :=
  invoke BrowserClose (λ _, VNone) (browser_close E).

Definition playwright_enter : M W unit :=
  invoke SyncPlaywrightEnter (λ _, VNone) (sync_playwright_enter E).

Definition playwright_exit : M W unit :=
  invoke SyncPlaywrightExit (λ _, VNone) (sync_playwright_exit E).

(** The three targets of the flow. *)
Definition repo_item : locator := first (get_by_text "test-repo").
Definition title_input : locator := get_by_placeholder "Task Title".
Definition start_btn : locator := get_by_role "button" "Start Session".

Definition success_png : string := "verification/session_created.png".
Definition failure_png : string := "verification/failure.png".

Definition sessions_dir_of (home : string) : string :=
  os_path_join home [".viba"; "sessions"].

Definition no_session_file : exc := Exception "No session file created!".

Definition session_files_line (files : list string) : message :=
  [Lit "Session files: "; ReprList files].
Definition success_line : message := [Lit "Verification successful!"].
Definition failure_line (e : exc) : message :=
  [Lit "Verification failed: "; StrExc e].

(** [def test_session_creation(page)]. *)
Definition test_session_creation : M W unit :=
  (* 1. Go to homepage *)
  page_call (goto "http://localhost:3000") ;;
  (* 2. Look for recent repo *)
  page_call (to_be_visible repo_item) ;;
  page_call (click repo_item) ;;
  (* 3. Wait for details view *)
  page_call (to_be_visible title_input) ;;
  page_call (fill title_input "Test Session") ;;
  (* 4. Start Session *)
  page_call (click start_btn) ;;
  (* 5. Wait for session page *)
  page_call (wait_for_url "**/session?*") ;;
  page_call (wait_for_timeout 2000) ;;
  (* 6. Screenshot *)
  present <- exists_ "verification" ;
  (if negb present then makedirs "verification" else ret tt) ;;
  page_call (screenshot success_png) ;;
  (* 7. Check file system *)
  home <- expanduser "~" ;
  files <- listdir (sessions_dir_of home) ;
  print (session_files_line files) ;;
  if negb (any_json files) then raise no_session_file else ret tt.

(** [if __name__ == "__main__":]. *)
Definition main : M W unit :=
  with_ playwright_enter playwright_exit
    (launch true ;;
     new_page ;;
     try_except_finally
       (test_session_creation ;; print success_line)
       (λ e, print (failure_line e) ;; page_call (screenshot failure_png))
       close).

(** A run starts with an empty log. *)
Definition run (w : W) : result unit * state W := main (State w []).

Definition outcome (w : W) : result unit := fst (run w).
Definition final_world (w : W) : W := world (snd (run w)).
Definition trace (w : W) : list event := log (snd (run w)).

End Harness.

(** ** Reading a trace *)

(** The lines printed, in order. *)
Definition printed (t : list event) : list message :=
  omap (λ ev, match ev_call ev with Print m => Some m | _ => None end) t.

(** The calls issued, in order, without their answers. *)
Definition calls (t : list event) : list call := ev_call <$> t.

Definition returned (c : call) : event := Ev c (Returned VNone).

(** The run reports success when the success line is printed. *)
Definition reports_success (t : list event) : Prop :=
  success_line ∈ printed t.

(** The run reports the failure [e] when the failure line carrying [e]
    is printed. *)
Definition reports_failure (e : exc) (t : list event) : Prop :=
  failure_line e ∈ printed t.

(** [b] comes right after [a] somewhere in [t]. *)
Definition adjacent {A} (a b : A) (t : list A) : Prop :=
  ∃ pre post, t = pre ++ a :: b :: post.

(** [a] occurs before [b] in [t]. *)
Definition before {A} (a b : A) (t : list A) : Prop :=
  ∃ pre mid post, t = pre ++ a :: mid ++ b :: post.

(** ** An executable environment *)

(** A test double for the browser, the application and the file system:
    every call returns unless the scenario lists a fault for it; the
    file system is a finite map from paths to nodes; the application
    writes its session files when the start button is clicked. *)
Module Stub.

Inductive node : Type :=
| Dir (entries : list string)
| File.

Record world : Type := World {
  fs : gmap string node;
  home : string;
  (* the exception a call raises, if any *)
  fault : call → option exc;
  (* the files the application adds to the sessions directory *)
  app_writes : list string;
  (* whether the driver creates a missing parent directory itself *)
  driver_makes_dirs : bool;
  browser_open : bool;
}.

Definition set_fs (m : gmap string node) (w : world) : world :=
  World m (home w) (fault w) (app_writes w) (driver_makes_dirs w)
    (browser_open w).

Definition set_open (b : bool) (w : world) : world :=
  World (fs w) (home w) (fault w) (app_writes w) (driver_makes_dirs w) b.

(** Directory part and last component of a path. *)
Fixpoint split_path (s : string) : option string * string :=
  match s with
  | EmptyString => (None, EmptyString)
  | String c s' =>
      match split_path s' with
      | (Some d, b) => (Some (String c d), b)
      | (None, b) =>
          if Ascii.eqb c "/"%char then (Some EmptyString, b)
          else (None, String c b)
      end
  end.

Definition listing (m : gmap string node) (dir : string) : list string :=
  match m !! dir with Some (Dir l) => l | _ => [] end.

(** Create [dir/name], and [dir] with it when it is missing. *)
Definition fs_add (dir name : string) (m : gmap string node)
    : gmap string node :=
  <[dir +:+ "/" +:+ name := File]>
    (<[dir := Dir (listing m dir ++ [name])]> m).

Definition errno (n what p : string) : exc :=
  Exception ("[Errno " +:+ n +:+ "] " +:+ what +:+ ": '" +:+ p +:+ "'").

Definition guarded {A} (c : call) (w : world)
    (k : result A * world) : result A * world :=
  match fault w c with
  | Some e => (Raise e, w)
  | None => k
  end.

Definition write_file (p : string) (w : world) : result unit * world :=
  match split_path p with
  | (None, _) => (Ok tt, set_fs (<[p := File]> (fs w)) w)
  | (Some d, b) =>
      match fs w !! d with
      | Some (Dir _) => (Ok tt, set_fs (fs_add d b (fs w)) w)
      | Some File => (Raise (errno "20" "Not a directory" p), w)
      | None =>
          if driver_makes_dirs w
          then (Ok tt, set_fs (fs_add d b (fs w)) w)
          else (Raise (errno "2" "No such file or directory" p), w)
      end
  end.

Definition page (op : page_op) (w : world) : result unit * world :=
  guarded (PageCall op) w
    match op with
    | click (get_by_role "button" "Start Session") =>
        (Ok tt,
         set_fs (foldl (λ m f, fs_add (sessions_dir_of (home w)) f m)
                   (fs w) (app_writes w)) w)
    | screenshot p => write_file p w
    | _ => (Ok tt, w)
    end.

Definition path_exists (p : string) (w : world) : bool * world :=
  (bool_decide (is_Some (fs w !! p)), w).

Definition mkdirs (p : string) (w : world) : result unit * world :=
  guarded (OsMakedirs p) w
    match fs w !! p with
    | Some _ => (Raise (errno "17" "File exists" p), w)
    | None => (Ok tt, set_fs (<[p := Dir []]> (fs w)) w)
    end.

Definition user_home (p : string) (w : world) : string * world :=
  (if String.eqb p "~" then home w else p, w).

Definition list_dir (p : string) (w : world)
    : result (list string) * world :=
  guarded (OsListdir p) w
    match fs w !! p with
    | Some (Dir l) => (Ok l, w)
    | Some File => (Raise (errno "20" "Not a directory" p), w)
    | None => (Raise (errno "2" "No such file or directory" p), w)
    end.

Definition env : Env world := {|
  sync_playwright_enter w := guarded SyncPlaywrightEnter w (Ok tt, w);
  sync_playwright_exit w := guarded SyncPlaywrightExit w (Ok tt, w);
  chromium_launch h w :=
    guarded (ChromiumLaunch h) w (Ok tt, set_open true w);
  browser_new_page w := guarded BrowserNewPage w (Ok tt, w);
  browser_close w := guarded BrowserClose w (Ok tt, set_open false w);
  page_do := page;
  os_path_exists := path_exists;
  os_makedirs := mkdirs;
  os_path_expanduser := user_home;
  os_listdir := list_dir;
|}.

Definition no_fault : call → option exc := λ _, None.

Definition sessions : string := "/home/dev/.viba/sessions".

(** What [os.listdir] raises when the sessions directory is missing. *)
Definition sessions_not_found : exc :=
  errno "2" "No such file or directory" sessions.

(** A machine on which the application works: the sessions directory
    is there and empty, the evidence directory is not, and starting a
    session writes one file. *)
Definition healthy : world :=
  World {[ sessions := Dir [] ]} "/home/dev" no_fault ["s1.json"] true false.

(** The application never persists anything, but an earlier session
    left its file behind. *)
Definition stale : world :=
  World {[ sessions := Dir ["old.json"] ]} "/home/dev" no_fault [] true false.

(** The sessions directory was never created and the application
    persists nothing. *)
Definition no_sessions_dir : world :=
  World ∅ "/home/dev" no_fault [] true false.

(** The sessions directory is there, the application persists
    nothing. *)
Definition nothing_written : world :=
  World {[ sessions := Dir [] ]} "/home/dev" no_fault [] true false.

Definition not_visible : exc :=
  Exception "Locator expected to be visible".

(** The repository list does not render. *)
Definition repo_missing : world :=
  World {[ sessions := Dir [] ]} "/home/dev"
    (λ c, match c with
          | PageCall (to_be_visible (first (get_by_text "test-repo"))) =>
              Some not_visible
          | _ => None
          end)
    ["s1.json"] true false.

Definition refused : exc :=
  Exception "net::ERR_CONNECTION_REFUSED at http://localhost:3000/".
Definition target_closed : exc :=
  Exception "Target page, context or browser has been closed".


(** The page dies during navigation: every later call on it fails. *)
Definition page_crashed : world :=
  World ∅ "/home/dev"
    (λ c, match c with
          | PageCall (goto _) => Some refused
          | PageCall (screenshot _) => Some target_closed
          | _ => None
          end)
    [] true false.


End Stub.

(** ** Vocabulary of the properties *)

(** The locator an interaction acts on. *)
Definition target (c : call) : option locator :=
  match c with
  | PageCall (click l) | PageCall (fill l _) => Some l
  | _ => None
  end.

(** Every interaction on a locator selected by [P] comes right after a
    visibility assertion on that locator that returned. *)
Definition gated (P : locator → Prop) (t : list event) : Prop :=
  ∀ pre ev post l,
    t = pre ++ ev :: post → target (ev_call ev) = Some l → P l →
    ∃ pre', pre = pre' ++ [returned (PageCall (to_be_visible l))].

(** The same, computed along the trace; [prev] is the event before. *)
Fixpoint gated_after (P : locator → Prop) (prev : option event)
    (t : list event) : Prop :=
  match t with
  | [] => True
  | ev :: t' =>
      (∀ l, target (ev_call ev) = Some l → P l →
            prev = Some (returned (PageCall (to_be_visible l))))
      ∧ gated_after P (Some ev) t'
  end.

(** [after] has everything [before] has, and a [.json] name on top. *)
Definition new_json_entry (before after : list string) : Prop :=
  (∀ f, f ∈ before → f ∈ after)
  ∧ ∃ f, f ∈ after ∧ (f ∉ before) ∧ endswith f ".json" = true.

(** The phases of a successful run, as stretches of the trace. *)
Definition startup : list event :=
  [returned SyncPlaywrightEnter; returned (ChromiumLaunch true);
   returned BrowserNewPage].

Definition interaction_sequence : list event :=
  [returned (PageCall (goto "http://localhost:3000"));
   returned (PageCall (to_be_visible repo_item));
   returned (PageCall (click repo_item));
   returned (PageCall (to_be_visible title_input));
   returned (PageCall (fill title_input "Test Session"));
   returned (PageCall (click start_btn))].

Definition url_wait : list event :=
  [returned (PageCall (wait_for_url "**/session?*"))].

Definition settle_delay : list event :=
  [returned (PageCall (wait_for_timeout 2000))].

Definition success_capture (present : bool) : list event :=
  Ev (OsPathExists "verification") (Returned (VBool present))
  :: (if present then [] else [returned (OsMakedirs "verification")])
  ++ [returned (PageCall (screenshot success_png))].

Definition artifact_verification (home : string) (files : list string)
    : list event :=
  [Ev (OsPathExpanduser "~") (Returned (VStr home));
   Ev (OsListdir (sessions_dir_of home)) (Returned (VList files));
   returned (Print (session_files_line files))].


(** The calls made from inside [test_session_creation]: everything on
    the page and in [os], except the screenshot of the failure path. *)
Definition in_flow (c : call) : bool :=
  match c with
  | PageCall (screenshot p) => negb (String.eqb p failure_png)
  | PageCall _ | OsPathExists _ | OsMakedirs _ | OsPathExpanduser _
  | OsListdir _ => true
  | _ => false
  end.

(** More machines for the stub, one fault each. *)
Module Cases.

Definition faulty (f : call → option exc) : Stub.world :=
  Stub.World {[ Stub.sessions := Stub.Dir [] ]} "/home/dev" f
    ["s1.json"] true false.

Definition denied : exc :=
  Exception "[Errno 13] Permission denied: 'verification'".
Definition interrupt : exc := BaseException "KeyboardInterrupt".
Definition no_executable : exc :=
  Exception "BrowserType.launch: Executable doesn't exist".
Definition no_driver : exc := Exception "Connection closed".
Definition close_timeout : exc := Exception "Browser.close: Timeout exceeded".

(** The working directory is read-only. *)
Definition readonly_cwd : Stub.world :=
  faulty (λ c, match c with OsMakedirs _ => Some denied | _ => None end).

(** The user interrupts the wait for the session page. *)
Definition interrupted : Stub.world :=
  faulty (λ c, match c with
               | PageCall (wait_for_url _) => Some interrupt
               | _ => None
               end).

(** No browser is installed. *)
Definition no_browser : Stub.world :=
  faulty (λ c, match c with
               | ChromiumLaunch _ => Some no_executable
               | _ => None
               end).

(** The driver process cannot be started. *)
Definition driver_down : Stub.world :=
  faulty (λ c, match c with
               | SyncPlaywrightEnter => Some no_driver
               | _ => None
               end).

(** Everything works, but the browser does not shut down cleanly. *)
Definition close_fails : Stub.world :=
  faulty (λ c, match c with
               | BrowserClose => Some close_timeout
               | _ => None
               end).

End Cases.

(** ** Facts about lists and the helpers *)

Section ListFacts.
Context {A : Type}.
Implicit Types (a b x : A) (t : list A).

Lemma adjacent_here a b t : adjacent a b (a :: b :: t).
Proof. by exists [], t. Qed.

Lemma adjacent_skip a b x t : adjacent a b t → adjacent a b (x :: t).
Proof. intros (pre & post & ->). by exists (x :: pre), post. Qed.

Lemma before_here a b t : b ∈ t → before a b (a :: t).
Proof.
  intros (mid & post & ->)%list_elem_of_split. by exists [], mid, post.
Qed.

Lemma before_skip a b x t : before a b t → before a b (x :: t).
Proof. intros (pre & mid & post & ->). by exists (x :: pre), mid, post. Qed.

End ListFacts.

Lemma any_json_true (files : list string) :
  any_json files = true ↔ ∃ f, f ∈ files ∧ endswith f ".json" = true.
Proof.
  unfold any_json. rewrite existsb_exists.
  split; intros (f & Hf & Hjson); exists f; split; trivial;
    by apply list_elem_of_In.
Qed.

Lemma any_json_false (files : list string) :
  any_json files = false ↔ ∀ f, f ∈ files → endswith f ".json" = false.
Proof.
  rewrite <- not_true_iff_false, any_json_true. split.
  - intros Hno f Hf. apply not_true_iff_false. intros Hjson. eauto.
  - intros Hall (f & Hf & Hjson). rewrite (Hall f Hf) in Hjson. discriminate.
Qed.

(** The event before position [length pre], given the one before the
    list. *)
Lemma gated_after_split P prev pre ev post l :
  gated_after P prev (pre ++ ev :: post) →
  target (ev_call ev) = Some l → P l →
  last (option_list prev ++ pre)
  = Some (returned (PageCall (to_be_visible l))).
Proof.
  revert prev. induction pre as [|x pre IH]; intros prev [Hev Hrest] Ht HP.
  - rewrite app_nil_r, (Hev l Ht HP). reflexivity.
  - rewrite last_app_cons. exact (IH (Some x) Hrest Ht HP).
Qed.

Lemma gated_after_gated P t : gated_after P None t → gated P t.
Proof.
  intros H pre ev post l -> Ht HP.
  apply last_Some.
  exact (gated_after_split P None pre ev post l H Ht HP).
Qed.

Lemma gated_gated_after P t : gated P t → gated_after P None t.
Proof.
  intros H.
  assert (∀ pre rest, t = pre ++ rest → gated_after P (last pre) rest)
    as Hgen; [|exact (Hgen [] t eq_refl)].
  intros pre rest. revert pre.
  induction rest as [|ev rest IH]; intros pre Heq; [exact I|].
  split.
  - intros l Ht HP.
    destruct (H pre ev rest l Heq Ht HP) as [pre' ->].
    by rewrite last_snoc.
  - specialize (IH (pre ++ [ev])).
    rewrite last_snoc in IH. apply IH.
    by rewrite <- app_assoc.
Qed.

(** ** Running the script against an arbitrary environment *)

Arguments sessions_dir_of : simpl never.

Ltac unfold_script :=
  unfold outcome, final_world, trace, run, main, with_, try_except_finally,
    test_session_creation, playwright_enter, playwright_exit, launch,
    new_page, close, page_call, exists_, makedirs, expanduser, listdir,
    observe, invoke, print, bind, ret, raise, no_session_file.

Ltac reduce := cbn [fst snd world log app negb answer_of].

(** Ask the environment for its next answer; split an answer only where
    the script itself branches on it. *)
Ltac next_call E :=
  match goal with
  | |- context [sync_playwright_enter E ?w] =>
      destruct (sync_playwright_enter E w) as [?r ?w]
  | |- context [sync_playwright_exit E ?w] =>
      destruct (sync_playwright_exit E w) as [?r ?w]
  | |- context [chromium_launch E ?h ?w] =>
      destruct (chromium_launch E h w) as [?r ?w]
  | |- context [browser_new_page E ?w] =>
      destruct (browser_new_page E w) as [?r ?w]
  | |- context [browser_close E ?w] =>
      destruct (browser_close E w) as [?r ?w]
  | |- context [page_do E ?op ?w] =>
      destruct (page_do E op w) as [?r ?w]
  | |- context [os_path_exists E ?p ?w] =>
      destruct (os_path_exists E p w) as [[|] ?w]
  | |- context [os_makedirs E ?p ?w] =>
      destruct (os_makedirs E p w) as [?r ?w]
  | |- context [os_path_expanduser E ?p ?w] =>
      destruct (os_path_expanduser E p w) as [?home ?w]
  | |- context [os_listdir E ?p ?w] =>
      destruct (os_listdir E p w) as [?r ?w]
  | |- context [match ?r with Ok _ => _ | Raise _ => _ end] =>
      is_var r; destruct r as [?v|?e]
  | |- context [match ?e with Exception _ => _ | BaseException _ => _ end] =>
      is_var e; destruct e as [?m|?m]
  | |- context [any_json ?files] =>
      destruct (any_json files) eqn:?
  end; reduce.

Ltac execute E := unfold_script; reduce; repeat next_call E.

(** Which element of a literal list a membership hypothesis is about. *)
Ltac pick H :=
  repeat first
    [ apply elem_of_nil in H; destruct H
    | apply elem_of_cons in H as [H|H]; [try discriminate H|] ].

(** Membership, adjacency and order in a literal list. *)
Ltac found :=
  repeat first [apply list_elem_of_here | apply list_elem_of_further].
Ltac found_adjacent :=
  repeat first [apply adjacent_here | apply adjacent_skip].
Ltac found_before :=
  repeat first [apply before_here; found | apply before_skip].

Ltac lines :=
  unfold reports_success, reports_failure, success_line, failure_line,
    session_files_line in *;
  cbn [printed omap list_omap ev_call calls fmap list_fmap] in *.

(** ** The claims *)

(** C8: on the success path the phases come in this order and in no
    other: start-up, the interaction sequence, the wait for the session
    URL, the fixed settle delay, the success screenshot (with its
    directory check), the artifact verification, and only then the
    success line; each call is issued after the previous one
    returned. *)
Theorem C8_success_path_order {W} (E : Env W) (w : W) :
  reports_success (trace E w) →
  ∃ present home files a_close a_exit,
    any_json files = true
    ∧ trace E w =
        startup ++ interaction_sequence ++ url_wait ++ settle_delay
        ++ success_capture present ++ artifact_verification home files
        ++ [returned (Print success_line);
            Ev BrowserClose a_close; Ev SyncPlaywrightExit a_exit].
Proof.
  execute E; intros H; lines; pick H.
  all: (exists true + exists false);
    eexists _, _, _, _; split; [eassumption|reflexivity].
Qed.

Lemma C8_success_path_order_witness :
  reports_success (trace Stub.env Stub.healthy)
  ∧ ∃ present home files a_close a_exit,
      any_json files = true
      ∧ trace Stub.env Stub.healthy =
          startup ++ interaction_sequence ++ url_wait ++ settle_delay
          ++ success_capture present ++ artifact_verification home files
          ++ [returned (Print success_line);
              Ev BrowserClose a_close; Ev SyncPlaywrightExit a_exit].
Proof.
  assert (reports_success (trace Stub.env Stub.healthy)) as H
    by (vm_compute; found).
  split; [exact H|].
  exact (C8_success_path_order Stub.env Stub.healthy H).
Defined.

(** C7: when the visibility assertion on the repository item raises,
    the run reports exactly that assertion's diagnostic, prints nothing
    else, does not report success, and never reaches the wait for the
    session URL. *)
Theorem C7_repo_item_not_visible {W} (E : Env W) (w : W) (m : string) :
  Ev (PageCall (to_be_visible repo_item)) (Raised (Exception m)) ∈ trace E w →
  printed (trace E w) = [failure_line (Exception m)]
  ∧ ¬ reports_success (trace E w)
  ∧ ∀ pattern, PageCall (wait_for_url pattern) ∉ calls (trace E w).
Proof.
  execute E; intros H; pick H; simplify_eq.
  all: split; [reflexivity|]; split;
    [intros Hs; lines; pick Hs|intros p Hp; lines; pick Hp].
Qed.

Lemma C7_repo_item_not_visible_witness :
  Ev (PageCall (to_be_visible repo_item)) (Raised Stub.not_visible)
    ∈ trace Stub.env Stub.repo_missing
  ∧ printed (trace Stub.env Stub.repo_missing)
    = [failure_line Stub.not_visible]
  ∧ ¬ reports_success (trace Stub.env Stub.repo_missing)
  ∧ ∀ pattern,
      PageCall (wait_for_url pattern) ∉ calls (trace Stub.env Stub.repo_missing).
Proof.
  assert (Ev (PageCall (to_be_visible repo_item)) (Raised Stub.not_visible)
            ∈ trace Stub.env Stub.repo_missing) as H
    by (vm_compute; found).
  split; [exact H|].
  exact (C7_repo_item_not_visible Stub.env Stub.repo_missing _ H).
Defined.

(** C10: when the directory listing was reached and the run reports a
    failure, the success-named screenshot had already been taken (its
    call returned) before the failure line, the failure screenshot is
    attempted right after that line, and the run does not report
    success. *)
Theorem C10_success_png_before_verification_failure {W} (E : Env W) (w : W)
    (dir : string) (a : answer) (e : exc) :
  Ev (OsListdir dir) a ∈ trace E w →
  reports_failure e (trace E w) →
  before (returned (PageCall (screenshot success_png)))
         (returned (Print (failure_line e))) (trace E w)
  ∧ (∃ a', adjacent (returned (Print (failure_line e)))
                    (Ev (PageCall (screenshot failure_png)) a') (trace E w))
  ∧ ¬ reports_success (trace E w).
Proof.
  execute E; intros H Hf; pick H; lines; pick Hf; simplify_eq.
  all: split; [found_before|]; split;
    [eexists; found_adjacent|intros Hs; pick Hs].
Qed.

Lemma C10_success_png_before_verification_failure_witness :
  Ev (OsListdir Stub.sessions) (Returned (VList []))
    ∈ trace Stub.env Stub.nothing_written
  ∧ reports_failure no_session_file (trace Stub.env Stub.nothing_written)
  ∧ before (returned (PageCall (screenshot success_png)))
           (returned (Print (failure_line no_session_file)))
           (trace Stub.env Stub.nothing_written)
  ∧ (∃ a', adjacent (returned (Print (failure_line no_session_file)))
                    (Ev (PageCall (screenshot failure_png)) a')
                    (trace Stub.env Stub.nothing_written))
  ∧ ¬ reports_success (trace Stub.env Stub.nothing_written).
Proof.
  assert (Ev (OsListdir Stub.sessions) (Returned (VList []))
            ∈ trace Stub.env Stub.nothing_written) as H
    by (vm_compute; found).
  assert (reports_failure no_session_file
            (trace Stub.env Stub.nothing_written)) as Hf
    by (vm_compute; found).
  split; [exact H|]. split; [exact Hf|].
  exact (C10_success_png_before_verification_failure
           Stub.env Stub.nothing_written _ _ _ H Hf).
Defined.

(** In the stub, that run leaves both evidence files on disk. *)
Example both_screenshots_after_verification_failure :
  let m := Stub.fs (final_world Stub.env Stub.nothing_written) in
  m !! success_png = Some Stub.File ∧ m !! failure_png = Some Stub.File.
Proof. by vm_compute. Qed.

(** C1, as the code has it: when the listing of the sessions directory
    raises (as it does for a missing directory), the verifier does not
    turn the error into its own diagnostic; the orchestrator catches it
    and the run reports a failure whose diagnostic is the error of the
    listing itself, printed right after the listing and alone. *)
Theorem C1_listing_error_is_the_diagnostic {W} (E : Env W) (w : W)
    (dir m : string) :
  Ev (OsListdir dir) (Raised (Exception m)) ∈ trace E w →
  printed (trace E w) = [failure_line (Exception m)]
  ∧ adjacent (Ev (OsListdir dir) (Raised (Exception m)))
             (returned (Print (failure_line (Exception m)))) (trace E w).
Proof.
  execute E; intros H; pick H; simplify_eq.
  all: split; [reflexivity|found_adjacent].
Qed.

Lemma C1_listing_error_is_the_diagnostic_witness :
  Ev (OsListdir Stub.sessions) (Raised Stub.sessions_not_found)
    ∈ trace Stub.env Stub.no_sessions_dir
  ∧ printed (trace Stub.env Stub.no_sessions_dir)
    = [failure_line Stub.sessions_not_found]
  ∧ adjacent (Ev (OsListdir Stub.sessions) (Raised Stub.sessions_not_found))
             (returned (Print (failure_line Stub.sessions_not_found)))
             (trace Stub.env Stub.no_sessions_dir).
Proof.
  assert (Ev (OsListdir Stub.sessions) (Raised Stub.sessions_not_found)
            ∈ trace Stub.env Stub.no_sessions_dir) as H
    by (vm_compute; found).
  split; [exact H|].
  exact (C1_listing_error_is_the_diagnostic
           Stub.env Stub.no_sessions_dir _ _ H).
Defined.

(** C1 as stated fails: with no sessions directory the error of the
    listing leaves the verifier as it is, and the run reports that
    error, not the artifact-missing diagnostic that an empty listing
    gets. *)
Lemma C1_missing_directory_counterexample :
  Stub.fs Stub.no_sessions_dir !! Stub.sessions = None
  ∧ fst (test_session_creation Stub.env (State Stub.no_sessions_dir []))
    = Raise Stub.sessions_not_found
  ∧ printed (trace Stub.env Stub.no_sessions_dir)
    = [failure_line Stub.sessions_not_found]
  ∧ ¬ reports_failure no_session_file (trace Stub.env Stub.no_sessions_dir)
  ∧ printed (trace Stub.env Stub.nothing_written)
    = [session_files_line []; failure_line no_session_file].
Proof.
  split; [by vm_compute|]. split; [by vm_compute|].
  split; [by vm_compute|]. split; [|by vm_compute].
  intros H. vm_compute in H. pick H.
Qed.

(** C2, as the code has it: a run that reports success has listed the
    sessions directory once, after the flow, and that listing holds at
    least one name ending in [.json]; nothing is compared with the
    content of the directory before the run. *)
Theorem C2_success_means_a_json_is_listed {W} (E : Env W) (w : W) :
  reports_success (trace E w) →
  ∃ home files f,
    Ev (OsListdir (sessions_dir_of home)) (Returned (VList files)) ∈ trace E w
    ∧ f ∈ files ∧ endswith f ".json" = true.
Proof.
  execute E; intros H; lines; pick H.
  all: match goal with
       | Hj : any_json _ = true |- _ =>
           apply any_json_true in Hj as (f & Hf & Hj)
       end.
  all: eexists _, _, f; split; [found|by split].
Qed.

Lemma C2_success_means_a_json_is_listed_witness :
  reports_success (trace Stub.env Stub.healthy)
  ∧ ∃ home files f,
      Ev (OsListdir (sessions_dir_of home)) (Returned (VList files))
        ∈ trace Stub.env Stub.healthy
      ∧ f ∈ files ∧ endswith f ".json" = true.
Proof.
  assert (reports_success (trace Stub.env Stub.healthy)) as H
    by (vm_compute; found).
  split; [exact H|].
  exact (C2_success_means_a_json_is_listed Stub.env Stub.healthy H).
Defined.

(** C2 as stated fails: the application writes nothing, a file of an
    earlier session is still there, and the run reports success although
    the directory after the run is the directory before it. *)
Lemma C2_stale_file_counterexample :
  let before_run := Stub.listing (Stub.fs Stub.stale) Stub.sessions in
  let after_run :=
    Stub.listing (Stub.fs (final_world Stub.env Stub.stale)) Stub.sessions in
  reports_success (trace Stub.env Stub.stale)
  ∧ before_run = ["old.json"]
  ∧ after_run = before_run
  ∧ ¬ new_json_entry before_run after_run.
Proof.
  assert (Stub.listing (Stub.fs (final_world Stub.env Stub.stale))
            Stub.sessions = ["old.json"]) as Hafter by (by vm_compute).
  assert (Stub.listing (Stub.fs Stub.stale) Stub.sessions = ["old.json"])
    as Hbefore by (by vm_compute).
  cbv zeta. rewrite Hafter, Hbefore.
  split; [vm_compute; found|]. split; [done|]. split; [done|].
  intros (_ & f & Hin & Hnew & _). contradiction.
Qed.

(** With a working application the same check does see a new file. *)
Example healthy_run_adds_a_json :
  new_json_entry
    (Stub.listing (Stub.fs Stub.healthy) Stub.sessions)
    (Stub.listing (Stub.fs (final_world Stub.env Stub.healthy)) Stub.sessions).
Proof.
  assert (Stub.listing (Stub.fs (final_world Stub.env Stub.healthy))
            Stub.sessions = ["s1.json"]) as -> by (by vm_compute).
  assert (Stub.listing (Stub.fs Stub.healthy) Stub.sessions = [])
    as -> by (by vm_compute).
  split; [by intros f Hf%elem_of_nil|].
  exists "s1.json". split; [found|]. split; [by intros Hf%elem_of_nil|].
  by vm_compute.
Qed.

(** C3, as the code has it: when the flow raises an exception [e], the
    failure line carrying [e] is printed first, it is the last line
    printed, and the failure screenshot is attempted right after it; if
    that capture itself raises, nothing swallows its error: the browser
    is still closed, and then an error leaves the run -- the error of
    the capture, when closing and leaving the driver context went
    well. *)
Theorem C3_failed_capture_is_not_swallowed {W} (E : Env W) (w : W)
    (e : exc) :
  reports_failure e (trace E w) →
  last (printed (trace E w)) = Some (failure_line e)
  ∧ ∃ a,
      adjacent (returned (Print (failure_line e)))
               (Ev (PageCall (screenshot failure_png)) a) (trace E w)
      ∧ ∀ e', a = Raised e' →
          BrowserClose ∈ calls (trace E w)
          ∧ ∃ x, outcome E w = Raise x
                 ∧ (returned BrowserClose ∈ trace E w →
                    returned SyncPlaywrightExit ∈ trace E w → x = e').
Proof.
  execute E; intros H; lines; pick H; simplify_eq.
  all: repeat match goal with
              | |- context [answer_of _ ?r] => destruct r; cbn [answer_of]
              end.
  all: split; [reflexivity|]; eexists; split; [found_adjacent|].
  all: intros e' He'; simplify_eq.
  all: split; [found|]; eexists; split; [reflexivity|].
  all: intros Hc Hx; pick Hc; pick Hx; reflexivity.
Qed.

Lemma C3_failed_capture_is_not_swallowed_witness :
  reports_failure Stub.refused (trace Stub.env Stub.page_crashed)
  ∧ last (printed (trace Stub.env Stub.page_crashed))
    = Some (failure_line Stub.refused)
  ∧ ∃ a,
      adjacent (returned (Print (failure_line Stub.refused)))
               (Ev (PageCall (screenshot failure_png)) a)
               (trace Stub.env Stub.page_crashed)
      ∧ ∀ e', a = Raised e' →
          BrowserClose ∈ calls (trace Stub.env Stub.page_crashed)
          ∧ ∃ x, outcome Stub.env Stub.page_crashed = Raise x
                 ∧ (returned BrowserClose ∈ trace Stub.env Stub.page_crashed →
                    returned SyncPlaywrightExit
                      ∈ trace Stub.env Stub.page_crashed →
                    x = e').
Proof.
  assert (reports_failure Stub.refused (trace Stub.env Stub.page_crashed))
    as H by (vm_compute; found).
  split; [exact H|].
  exact (C3_failed_capture_is_not_swallowed Stub.env Stub.page_crashed _ H).
Defined.

(** C3 as stated fails: the page dies during navigation, the failure
    line is printed, the failure screenshot raises in its turn, and that
    second error is what leaves the run. *)
Lemma C3_capture_error_counterexample :
  printed (trace Stub.env Stub.page_crashed) = [failure_line Stub.refused]
  ∧ Ev (PageCall (screenshot failure_png)) (Raised Stub.target_closed)
      ∈ trace Stub.env Stub.page_crashed
  ∧ outcome Stub.env Stub.page_crashed = Raise Stub.target_closed.
Proof.
  split; [by vm_compute|]. split; [vm_compute; found|by vm_compute].
Qed.

(** C4, as the code has it: the click on the repository item and the
    fill of the title input each come right after a visibility
    assertion on their own target that returned; the click on the
    submit control is issued right after the fill, and no visibility
    assertion on the submit control is ever made. *)
Theorem C4_repo_and_title_are_gated {W} (E : Env W) (w : W) :
  gated (λ l, l ≠ start_btn) (trace E w)
  ∧ (PageCall (to_be_visible start_btn) ∉ calls (trace E w))
  ∧ ∀ a, Ev (PageCall (click start_btn)) a ∈ trace E w →
         adjacent (returned (PageCall (fill title_input "Test Session")))
                  (Ev (PageCall (click start_btn)) a) (trace E w).
Proof.
  execute E.
  all: split;
    [apply gated_after_gated; cbn; repeat split; intros l Ht HP;
     by simplify_eq|].
  all: split; [intros H; lines; pick H|].
  all: intros a H; pick H; simplify_eq; found_adjacent.
Qed.

(** C4 as stated fails: in a successful run the click on the submit
    control is not preceded by a visibility assertion on it. *)
Lemma C4_submit_click_counterexample :
  ¬ gated (λ _, True) (trace Stub.env Stub.healthy).
Proof.
  intros H%gated_gated_after. vm_compute in H.
  repeat match type of H with _ ∧ _ => destruct H as [? H] end.
  match goal with
  | Hc : ∀ l, Some (get_by_role _ _) = Some l → _ |- _ =>
      specialize (Hc _ eq_refl I); discriminate Hc
  end.
Qed.

(** X16: the success screenshot is always taken right after the
    evidence directory was seen to exist or was created. *)
Lemma success_capture_checks_directory {W} (E : Env W) (w : W) (a : answer) :
  Ev (PageCall (screenshot success_png)) a ∈ trace E w →
  adjacent (Ev (OsPathExists "verification") (Returned (VBool true)))
           (Ev (PageCall (screenshot success_png)) a) (trace E w)
  ∨ (adjacent (Ev (OsPathExists "verification") (Returned (VBool false)))
              (returned (OsMakedirs "verification")) (trace E w)
     ∧ adjacent (returned (OsMakedirs "verification"))
                (Ev (PageCall (screenshot success_png)) a) (trace E w)).
Proof.
  execute E; intros H; pick H; simplify_eq.
  all: first [left; solve [found_adjacent]
             |right; split; solve [found_adjacent]].
Qed.

(** X17: the failure screenshot is always taken right after a failure
    line: nothing looks at the evidence directory in between. *)
Lemma failure_capture_follows_print {W} (E : Env W) (w : W) (a : answer) :
  Ev (PageCall (screenshot failure_png)) a ∈ trace E w →
  ∃ e, adjacent (returned (Print (failure_line e)))
                (Ev (PageCall (screenshot failure_png)) a) (trace E w).
Proof.
  execute E; intros H; pick H; simplify_eq.
  all: eexists; found_adjacent.
Qed.








(** ** Further properties of the script *)

(** *** The helpers *)

Lemma append_cons (c : ascii) (p s : string) :
  String c p +:+ s = String c (p +:+ s).
Proof. reflexivity. Qed.

Lemma substring_all (s : string) : String.substring 0 (String.length s) s = s.
Proof. induction s as [|c s IH]; cbn; [done|f_equal; exact IH]. Qed.

Lemma substring_skip (p s : string) (m : nat) :
  String.substring (String.length p) m (p +:+ s) = String.substring 0 m s.
Proof.
  induction p as [|c p IH]; [done|]. rewrite append_cons. exact IH.
Qed.

Lemma length_append (p s : string) :
  String.length (p +:+ s) = String.length p + String.length s.
Proof.
  induction p as [|c p IH]; [done|]. rewrite append_cons. cbn. by rewrite IH.
Qed.

Lemma append_assoc (a b c : string) : (a +:+ b) +:+ c = a +:+ (b +:+ c).
Proof.
  induction a as [|x a IH]; [done|]. rewrite !append_cons. by rewrite IH.
Qed.

Lemma substring_split (s : string) (k : nat) :
  k ≤ String.length s →
  s = String.substring 0 k s
      +:+ String.substring k (String.length s - k) s.
Proof.
  revert k. induction s as [|c s IH]; intros [|k] Hk; cbn in *; try lia.
  - done.
  - by rewrite substring_all.
  - rewrite append_cons. f_equal. apply IH. lia.
Qed.

Lemma endswith_append (p suffix : string) : endswith (p +:+ suffix) suffix = true.
Proof.
  unfold endswith. cbv zeta. rewrite length_append.
  destruct (Nat.leb_spec (String.length suffix)
              (String.length p + String.length suffix)) as [_|?]; [|lia].
  replace (String.length p + String.length suffix - String.length suffix)
    with (String.length p) by lia.
  rewrite substring_skip, substring_all. apply String.eqb_refl.
Qed.

Lemma endswith_inv (s suffix : string) :
  endswith s suffix = true → ∃ p, s = p +:+ suffix.
Proof.
  unfold endswith. cbv zeta.
  destruct (Nat.leb_spec (String.length suffix) (String.length s))
    as [Hle|?]; [|done].
  intros Heq%String.eqb_eq.
  exists (String.substring 0 (String.length s - String.length suffix) s).
  pose proof (substring_split s (String.length s - String.length suffix))
    as Hs.
  replace (String.length s - (String.length s - String.length suffix))
    with (String.length suffix) in Hs by lia.
  rewrite Heq in Hs. apply Hs. lia.
Qed.

(** X1: [str.endswith], as the verifier uses it, holds exactly of the
    names that are some (possibly empty) text followed by the suffix. *)
Theorem X1_endswith_iff_suffix (s suffix : string) :
  endswith s suffix = true ↔ ∃ p, s = p +:+ suffix.
Proof.
  split; [apply endswith_inv|]. intros [p ->]. apply endswith_append.
Qed.

(** X2: the artifact check passes exactly when some listed name is a
    (possibly empty) text followed by [.json]; nothing else about the
    listing matters. *)
Theorem X2_any_json_iff_some_name (files : list string) :
  any_json files = true ↔ ∃ f p, f ∈ files ∧ f = p +:+ ".json".
Proof.
  rewrite any_json_true. split.
  - intros (f & Hf & [p Hp]%endswith_inv). by exists f, p.
  - intros (f & p & Hf & ->). exists (p +:+ ".json").
    split; [done|]. apply endswith_append.
Qed.

Lemma substring_skip_more (p s : string) (k m : nat) :
  String.substring (String.length p + k) m (p +:+ s) = String.substring k m s.
Proof.
  induction p as [|c p IH]; [done|]. rewrite append_cons. exact IH.
Qed.

Lemma endswith_append_long (x t suffix : string) :
  String.length suffix ≤ String.length t →
  endswith (x +:+ t) suffix = endswith t suffix.
Proof.
  intros Hle. unfold endswith. cbv zeta. rewrite length_append.
  destruct (Nat.leb_spec (String.length suffix)
              (String.length x + String.length t)) as [_|?]; [|lia].
  destruct (Nat.leb_spec (String.length suffix) (String.length t))
    as [_|?]; [|lia].
  replace (String.length x + String.length t - String.length suffix)
    with (String.length x + (String.length t - String.length suffix))
    by lia.
  by rewrite substring_skip_more.
Qed.

Lemma append_nonempty (x t : string) :
  t ≠ "" → String.eqb (x +:+ t) "" = false.
Proof.
  intros Ht. apply String.eqb_neq. intros Heq.
  apply (f_equal String.length) in Heq. rewrite length_append in Heq.
  destruct t; [done|]. cbn in Heq. lia.
Qed.

(** X3: the directory that is listed is the home directory followed by
    [.viba/sessions], with one separator in between unless the home
    directory is empty or already ends with one. *)
Theorem X3_sessions_dir_of_home (home : string) :
  sessions_dir_of home
  = home
    +:+ (if String.eqb home "" || endswith home "/" then "" else "/")
    +:+ ".viba/sessions".
Proof.
  unfold sessions_dir_of, os_path_join. cbn [foldl].
  assert (∀ x, join_step (x +:+ ".viba") "sessions"
               = x +:+ ".viba/sessions") as Hlast.
  { intros x. unfold join_step.
    change (startswith "sessions" "/") with false. cbv iota.
    rewrite append_nonempty by done.
    rewrite endswith_append_long by (cbn; lia).
    change (endswith ".viba" "/") with false. cbn [orb].
    by rewrite !append_assoc. }
  unfold join_step at 2. change (startswith ".viba" "/") with false.
  cbv iota.
  destruct (String.eqb home "" || endswith home "/").
  - by rewrite Hlast.
  - rewrite <- append_assoc, Hlast. by rewrite !append_assoc.
Qed.

(** *** Failures inside the flow *)

(** X4: whatever call of the flow raises an exception -- navigation, an
    assertion, a click, the wait for the URL, [makedirs], the success
    screenshot, the listing -- that exception is the diagnostic: the
    failure line carrying it is printed right after the call and is the
    only line printed. *)
Theorem X4_flow_exception_is_reported {W} (E : Env W) (w : W)
    (c : call) (m : string) :
  in_flow c = true →
  Ev c (Raised (Exception m)) ∈ trace E w →
  printed (trace E w) = [failure_line (Exception m)]
  ∧ adjacent (Ev c (Raised (Exception m)))
             (returned (Print (failure_line (Exception m)))) (trace E w).
Proof.
  execute E; intros Hc H; pick H; simplify_eq; try discriminate Hc.
  all: split; [reflexivity|found_adjacent].
Qed.

Lemma X4_flow_exception_is_reported_witness :
  in_flow (OsMakedirs "verification") = true
  ∧ Ev (OsMakedirs "verification") (Raised Cases.denied)
      ∈ trace Stub.env Cases.readonly_cwd
  ∧ printed (trace Stub.env Cases.readonly_cwd)
    = [failure_line Cases.denied]
  ∧ adjacent (Ev (OsMakedirs "verification") (Raised Cases.denied))
             (returned (Print (failure_line Cases.denied)))
             (trace Stub.env Cases.readonly_cwd).
Proof.
  assert (Ev (OsMakedirs "verification") (Raised Cases.denied)
            ∈ trace Stub.env Cases.readonly_cwd) as H
    by (vm_compute; found).
  split; [reflexivity|]. split; [exact H|].
  exact (X4_flow_exception_is_reported Stub.env Cases.readonly_cwd
           (OsMakedirs "verification") _ eq_refl H).
Defined.

(** X5: a fault of the flow that is no [Exception] (an interrupt) is not
    caught: nothing is printed, no failure screenshot is attempted, the
    browser is closed right after the faulting call, and the fault
    leaves the run when closing and leaving the driver context went
    well. *)
Theorem X5_uncaught_fault_skips_report {W} (E : Env W) (w : W)
    (c : call) (m : string) :
  in_flow c = true →
  Ev c (Raised (BaseException m)) ∈ trace E w →
  printed (trace E w) = []
  ∧ (PageCall (screenshot failure_png) ∉ calls (trace E w))
  ∧ (∃ a, adjacent (Ev c (Raised (BaseException m))) (Ev BrowserClose a)
                   (trace E w))
  ∧ (returned BrowserClose ∈ trace E w →
     returned SyncPlaywrightExit ∈ trace E w →
     outcome E w = Raise (BaseException m)).
Proof.
  execute E; intros Hc H; pick H; simplify_eq; try discriminate Hc.
  all: split; [reflexivity|]; split; [intros Hs; lines; pick Hs|].
  all: split; [eexists; found_adjacent|].
  all: intros Hcl Hx; pick Hcl; pick Hx; reflexivity.
Qed.

Lemma X5_uncaught_fault_skips_report_witness :
  in_flow (PageCall (wait_for_url "**/session?*")) = true
  ∧ Ev (PageCall (wait_for_url "**/session?*")) (Raised Cases.interrupt)
      ∈ trace Stub.env Cases.interrupted
  ∧ printed (trace Stub.env Cases.interrupted) = []
  ∧ (PageCall (screenshot failure_png)
       ∉ calls (trace Stub.env Cases.interrupted))
  ∧ (∃ a, adjacent (Ev (PageCall (wait_for_url "**/session?*"))
                       (Raised Cases.interrupt))
                   (Ev BrowserClose a) (trace Stub.env Cases.interrupted))
  ∧ (returned BrowserClose ∈ trace Stub.env Cases.interrupted →
     returned SyncPlaywrightExit ∈ trace Stub.env Cases.interrupted →
     outcome Stub.env Cases.interrupted = Raise Cases.interrupt).
Proof.
  assert (Ev (PageCall (wait_for_url "**/session?*"))
             (Raised Cases.interrupt)
            ∈ trace Stub.env Cases.interrupted) as H
    by (vm_compute; found).
  split; [reflexivity|]. split; [exact H|].
  exact (X5_uncaught_fault_skips_report Stub.env Cases.interrupted
           (PageCall (wait_for_url "**/session?*")) _ eq_refl H).
Defined.

(** *** Start-up and shutdown *)

(** X6: when launching the browser raises, the run stops there: no page
    is opened, no step of the flow runs, nothing is printed, the launch
    is not tried again and no browser is closed; only the driver context
    is left, and the launch error leaves the run with it. *)
Theorem X6_launch_fault_aborts {W} (E : Env W) (w : W)
    (headless : bool) (e : exc) :
  Ev (ChromiumLaunch headless) (Raised e) ∈ trace E w →
  (∃ a, trace E w = [returned SyncPlaywrightEnter;
                     Ev (ChromiumLaunch true) (Raised e);
                     Ev SyncPlaywrightExit a])
  ∧ (returned SyncPlaywrightExit ∈ trace E w → outcome E w = Raise e).
Proof.
  execute E; intros H; pick H; simplify_eq.
  all: split; [by eexists|intros Hx; pick Hx; reflexivity].
Qed.

Lemma X6_launch_fault_aborts_witness :
  Ev (ChromiumLaunch true) (Raised Cases.no_executable)
    ∈ trace Stub.env Cases.no_browser
  ∧ (∃ a, trace Stub.env Cases.no_browser
          = [returned SyncPlaywrightEnter;
             Ev (ChromiumLaunch true) (Raised Cases.no_executable);
             Ev SyncPlaywrightExit a])
  ∧ (returned SyncPlaywrightExit ∈ trace Stub.env Cases.no_browser →
     outcome Stub.env Cases.no_browser = Raise Cases.no_executable).
Proof.
  assert (Ev (ChromiumLaunch true) (Raised Cases.no_executable)
            ∈ trace Stub.env Cases.no_browser) as H
    by (vm_compute; found).
  split; [exact H|].
  exact (X6_launch_fault_aborts Stub.env Cases.no_browser _ _ H).
Defined.

(** X7: when entering the driver context raises, that is the whole run:
    no other call is made, not even the exit of the context, and the
    error leaves the run. *)
Theorem X7_enter_fault_is_the_whole_run {W} (E : Env W) (w : W) (e : exc) :
  Ev SyncPlaywrightEnter (Raised e) ∈ trace E w →
  trace E w = [Ev SyncPlaywrightEnter (Raised e)]
  ∧ outcome E w = Raise e.
Proof.
  execute E; intros H; pick H; by simplify_eq.
Qed.

Lemma X7_enter_fault_is_the_whole_run_witness :
  Ev SyncPlaywrightEnter (Raised Cases.no_driver)
    ∈ trace Stub.env Cases.driver_down
  ∧ trace Stub.env Cases.driver_down
    = [Ev SyncPlaywrightEnter (Raised Cases.no_driver)]
  ∧ outcome Stub.env Cases.driver_down = Raise Cases.no_driver.
Proof.
  assert (Ev SyncPlaywrightEnter (Raised Cases.no_driver)
            ∈ trace Stub.env Cases.driver_down) as H
    by (vm_compute; found).
  split; [exact H|].
  exact (X7_enter_fault_is_the_whole_run Stub.env Cases.driver_down _ H).
Defined.

(** X8: once the driver context has been entered, leaving it is the
    last call of the run, whatever happened in between, and it is made
    once. *)
Theorem X8_context_exit_is_last {W} (E : Env W) (w : W) :
  returned SyncPlaywrightEnter ∈ trace E w →
  ∃ pre a,
    trace E w = pre ++ [Ev SyncPlaywrightExit a]
    ∧ SyncPlaywrightExit ∉ calls pre.
Proof.
  execute E; intros H; pick H.
  all: match goal with
       | |- ∃ pre _, ?t = _ ∧ _ =>
           let pre := eval cbn in (take (length t - 1) t) in exists pre
       end.
  all: eexists; split; [reflexivity|intros Hc; lines; pick Hc].
Qed.

Lemma X8_context_exit_is_last_witness :
  returned SyncPlaywrightEnter ∈ trace Stub.env Cases.no_browser
  ∧ ∃ pre a,
      trace Stub.env Cases.no_browser = pre ++ [Ev SyncPlaywrightExit a]
      ∧ SyncPlaywrightExit ∉ calls pre.
Proof.
  assert (returned SyncPlaywrightEnter ∈ trace Stub.env Cases.no_browser)
    as H by (vm_compute; found).
  split; [exact H|].
  exact (X8_context_exit_is_last Stub.env Cases.no_browser H).
Defined.

(** X9: an error of [browser.close()] in the [finally] block replaces
    whatever was pending: it leaves the run (when the driver context is
    left without error) even if the verification had just reported
    success. *)
Theorem X9_close_error_leaves_the_run {W} (E : Env W) (w : W) (e : exc) :
  Ev BrowserClose (Raised e) ∈ trace E w →
  returned SyncPlaywrightExit ∈ trace E w →
  outcome E w = Raise e.
Proof.
  execute E; intros H Hx; pick H; simplify_eq.
  all: repeat match goal with
              | H : Raised _ = answer_of _ ?r |- _ =>
                  destruct r; cbn [answer_of] in *; simplify_eq
              end.
  all: pick Hx; reflexivity.
Qed.

Lemma X9_close_error_leaves_the_run_witness :
  Ev BrowserClose (Raised Cases.close_timeout)
    ∈ trace Stub.env Cases.close_fails
  ∧ returned SyncPlaywrightExit ∈ trace Stub.env Cases.close_fails
  ∧ reports_success (trace Stub.env Cases.close_fails)
  ∧ outcome Stub.env Cases.close_fails = Raise Cases.close_timeout.
Proof.
  assert (Ev BrowserClose (Raised Cases.close_timeout)
            ∈ trace Stub.env Cases.close_fails) as H
    by (vm_compute; found).
  assert (returned SyncPlaywrightExit ∈ trace Stub.env Cases.close_fails)
    as Hx by (vm_compute; found).
  split; [exact H|]. split; [exact Hx|].
  split; [vm_compute; found|].
  exact (X9_close_error_leaves_the_run Stub.env Cases.close_fails _ H Hx).
Defined.

(** *** What the outcome of the run tells *)

(** X10: a run that reports a failure and whose failure screenshot,
    browser shutdown and context exit all return ends normally: the
    script raises nothing, so the process ends like a successful one. *)
Theorem X10_reported_failure_ends_normally {W} (E : Env W) (w : W)
    (e : exc) :
  reports_failure e (trace E w) →
  returned (PageCall (screenshot failure_png)) ∈ trace E w →
  returned BrowserClose ∈ trace E w →
  returned SyncPlaywrightExit ∈ trace E w →
  outcome E w = Ok tt.
Proof.
  execute E; intros H Hs Hc Hx; lines; pick H.
  all: pick Hc; pick Hx; pick Hs.
  all: repeat match goal with
              | Hr : returned _ = Ev _ (answer_of _ ?r) |- _ =>
                  destruct r; cbn [answer_of] in Hr; try discriminate Hr
              end.
  all: repeat match goal with v : unit |- _ => destruct v end; reflexivity.
Qed.

Lemma X10_reported_failure_ends_normally_witness :
  reports_failure no_session_file (trace Stub.env Stub.nothing_written)
  ∧ returned (PageCall (screenshot failure_png))
      ∈ trace Stub.env Stub.nothing_written
  ∧ returned BrowserClose ∈ trace Stub.env Stub.nothing_written
  ∧ returned SyncPlaywrightExit ∈ trace Stub.env Stub.nothing_written
  ∧ outcome Stub.env Stub.nothing_written = Ok tt.
Proof.
  assert (reports_failure no_session_file
            (trace Stub.env Stub.nothing_written)) as H
    by (vm_compute; found).
  assert (returned (PageCall (screenshot failure_png))
            ∈ trace Stub.env Stub.nothing_written) as Hs
    by (vm_compute; found).
  assert (returned BrowserClose ∈ trace Stub.env Stub.nothing_written)
    as Hc by (vm_compute; found).
  assert (returned SyncPlaywrightExit ∈ trace Stub.env Stub.nothing_written)
    as Hx by (vm_compute; found).
  split; [exact H|]. split; [exact Hs|]. split; [exact Hc|].
  split; [exact Hx|].
  exact (X10_reported_failure_ends_normally
           Stub.env Stub.nothing_written _ H Hs Hc Hx).
Defined.

(** X11: a run that ends normally has printed its report -- the success
    line, or a failure line followed by a failure screenshot that
    returned -- and has closed the browser and left the driver context
    without error. *)
Theorem X11_normal_end_means_reported {W} (E : Env W) (w : W) :
  outcome E w = Ok tt →
  (reports_success (trace E w)
   ∨ ∃ e, reports_failure e (trace E w)
          ∧ returned (PageCall (screenshot failure_png)) ∈ trace E w)
  ∧ returned BrowserClose ∈ trace E w
  ∧ returned SyncPlaywrightExit ∈ trace E w.
Proof.
  execute E; intros H; try discriminate H.
  all: repeat match goal with
              | |- context [answer_of _ ?r] =>
                  destruct r; cbn [answer_of]; try discriminate H
              end.
  all: split; [|split; found].
  all: first [left; lines; solve [found]
             |right; eexists; split; [lines|]; solve [found]].
Qed.

Lemma X11_normal_end_means_reported_witness :
  outcome Stub.env Stub.healthy = Ok tt
  ∧ (reports_success (trace Stub.env Stub.healthy)
     ∨ ∃ e, reports_failure e (trace Stub.env Stub.healthy)
            ∧ returned (PageCall (screenshot failure_png))
                ∈ trace Stub.env Stub.healthy)
  ∧ returned BrowserClose ∈ trace Stub.env Stub.healthy
  ∧ returned SyncPlaywrightExit ∈ trace Stub.env Stub.healthy.
Proof.
  assert (outcome Stub.env Stub.healthy = Ok tt) as H by (by vm_compute).
  split; [exact H|].
  exact (X11_normal_end_means_reported Stub.env Stub.healthy H).
Defined.

(** *** The verification step *)

(** X12: once the listing of the sessions directory has returned, the
    verdict depends on that listing alone: the listing is printed as it
    is, then the success line if some name ends in [.json], otherwise
    the failure line with the verifier's own diagnostic -- an empty
    listing included. *)
Theorem X12_verdict_follows_listing {W} (E : Env W) (w : W)
    (dir : string) (files : list string) :
  Ev (OsListdir dir) (Returned (VList files)) ∈ trace E w →
  printed (trace E w)
  = [session_files_line files;
     if any_json files then success_line else failure_line no_session_file].
Proof.
  execute E; intros H; pick H; simplify_eq; try congruence.
  all: try match goal with Hj : any_json _ = _ |- _ => rewrite Hj end.
  all: reflexivity.
Qed.

Lemma X12_verdict_follows_listing_witness :
  Ev (OsListdir Stub.sessions) (Returned (VList []))
    ∈ trace Stub.env Stub.nothing_written
  ∧ printed (trace Stub.env Stub.nothing_written)
    = [session_files_line [];
       if any_json [] then success_line else failure_line no_session_file].
Proof.
  assert (Ev (OsListdir Stub.sessions) (Returned (VList []))
            ∈ trace Stub.env Stub.nothing_written) as H
    by (vm_compute; found).
  split; [exact H|].
  exact (X12_verdict_follows_listing Stub.env Stub.nothing_written _ _ H).
Defined.

(** X13: the directory that is listed is always the one derived from
    what [expanduser("~")] has just returned; no other directory is
    ever listed. *)
Theorem X13_listing_is_of_the_home_sessions {W} (E : Env W) (w : W)
    (dir : string) (a : answer) :
  Ev (OsListdir dir) a ∈ trace E w →
  ∃ home,
    dir = sessions_dir_of home
    ∧ adjacent (Ev (OsPathExpanduser "~") (Returned (VStr home)))
               (Ev (OsListdir dir) a) (trace E w).
Proof.
  execute E; intros H; pick H; simplify_eq.
  all: eexists; split; [reflexivity|found_adjacent].
Qed.

Lemma X13_listing_is_of_the_home_sessions_witness :
  Ev (OsListdir Stub.sessions) (Returned (VList ["s1.json"]))
    ∈ trace Stub.env Stub.healthy
  ∧ ∃ home,
      Stub.sessions = sessions_dir_of home
      ∧ adjacent (Ev (OsPathExpanduser "~") (Returned (VStr home)))
                 (Ev (OsListdir Stub.sessions)
                     (Returned (VList ["s1.json"])))
                 (trace Stub.env Stub.healthy).
Proof.
  assert (Ev (OsListdir Stub.sessions) (Returned (VList ["s1.json"]))
            ∈ trace Stub.env Stub.healthy) as H
    by (vm_compute; found).
  split; [exact H|].
  exact (X13_listing_is_of_the_home_sessions Stub.env Stub.healthy _ _ H).
Defined.

(** *** The evidence directory *)

(** X14: [os.makedirs] is only ever called on the evidence directory,
    right after [os.path.exists] reported it absent; when the directory
    was reported present it is never called. *)
Theorem X14_makedirs_only_when_absent {W} (E : Env W) (w : W)
    (p : string) (a : answer) :
  Ev (OsMakedirs p) a ∈ trace E w →
  p = "verification"
  ∧ adjacent (Ev (OsPathExists "verification") (Returned (VBool false)))
             (Ev (OsMakedirs p) a) (trace E w)
  ∧ Ev (OsPathExists "verification") (Returned (VBool true)) ∉ trace E w.
Proof.
  execute E; intros H; pick H; simplify_eq.
  all: split; [reflexivity|]; split; [found_adjacent|intros Hp; pick Hp].
Qed.

Lemma X14_makedirs_only_when_absent_witness :
  returned (OsMakedirs "verification") ∈ trace Stub.env Stub.healthy
  ∧ "verification" = "verification"
  ∧ adjacent (Ev (OsPathExists "verification") (Returned (VBool false)))
             (returned (OsMakedirs "verification"))
             (trace Stub.env Stub.healthy)
  ∧ Ev (OsPathExists "verification") (Returned (VBool true))
      ∉ trace Stub.env Stub.healthy.
Proof.
  assert (returned (OsMakedirs "verification")
            ∈ trace Stub.env Stub.healthy) as H
    by (vm_compute; found).
  split; [exact H|].
  exact (X14_makedirs_only_when_absent Stub.env Stub.healthy _ _ H).
Defined.

(** *** No retries *)

(** X15: no call is issued twice in a run: no step of the flow, no
    screenshot, no print and no start-up or shutdown call is ever
    repeated. *)
Theorem X15_no_call_is_repeated {W} (E : Env W) (w : W) :
  NoDup (calls (trace E w)).
Proof.
  execute E; lines.
  all: repeat (apply NoDup_cons; split; [intros H; pick H|]).
  all: apply NoDup_nil_2.
Qed.

Lemma success_capture_checks_directory_witness :
  returned (PageCall (screenshot success_png)) ∈ trace Stub.env Stub.healthy
  ∧ (adjacent (Ev (OsPathExists "verification") (Returned (VBool true)))
              (returned (PageCall (screenshot success_png)))
              (trace Stub.env Stub.healthy)
     ∨ (adjacent (Ev (OsPathExists "verification") (Returned (VBool false)))
                 (returned (OsMakedirs "verification"))
                 (trace Stub.env Stub.healthy)
        ∧ adjacent (returned (OsMakedirs "verification"))
                   (returned (PageCall (screenshot success_png)))
                   (trace Stub.env Stub.healthy))).
Proof.
  assert (returned (PageCall (screenshot success_png))
            ∈ trace Stub.env Stub.healthy) as H
    by (vm_compute; found).
  split; [exact H|].
  exact (success_capture_checks_directory Stub.env Stub.healthy _ H).
Defined.

Lemma failure_capture_follows_print_witness :
  returned (PageCall (screenshot failure_png))
    ∈ trace Stub.env Stub.repo_missing
  ∧ ∃ e, adjacent (returned (Print (failure_line e)))
                  (returned (PageCall (screenshot failure_png)))
                  (trace Stub.env Stub.repo_missing).
Proof.
  assert (returned (PageCall (screenshot failure_png))
            ∈ trace Stub.env Stub.repo_missing) as H
    by (vm_compute; found).
  split; [exact H|].
  exact (failure_capture_follows_print Stub.env Stub.repo_missing _ H).
Defined.
